(** * multi_tool_agent/agent.py: the two lookup tools and the script

    A shallow embedding of [get_weather] and [get_current_time], of the
    start-up of the module and of its scripted interaction, with the
    properties of what they return, raise and print.

    Conventions of the embedding.
    - A Python [str] is a [string]: the bytes of its UTF-8 encoding, in
      which a lone surrogate (a code point from U+D800 to U+DFFF, which a
      [str] may hold) is written on three bytes like any other code point
      of its range, as the [surrogatepass] handler writes it.  The
      encoding works code point by code point, so concatenation and
      equality of [str] values are concatenation and equality of these
      byte sequences, and a [str] of ASCII characters only is a [string]
      whose bytes are all below 128.
    - What the tools take from the Python runtime ([str.lower], [repr],
      [ZoneInfo], [datetime.datetime.now], the error of the output stream)
      is gathered in the class [Runtime]; the tools are defined over an
      arbitrary runtime.
    - Standard output is the list of the texts printed, one for each call
      of [print]; a text may hold newline characters.  The stream is taken
      to be open and to encode in UTF-8 with strict error handling, as
      Python sets it up by default: [print] raises [UnicodeEncodeError],
      and writes nothing, when the text holds a lone surrogate.
    - A computation is in the monad [Py]: it threads standard output and
      either returns a value or raises a [BaseException], which is an
      instance of [Exception] or not ([KeyboardInterrupt], [SystemExit],
      [asyncio.CancelledError]).
    - What [ZoneInfo] and [datetime.datetime.now] raise when they fail is an
      instance of [Exception]. *)

From Stdlib Require Import String Ascii List Bool NArith ZArith Lia.
From Stdlib Require Import DecimalString.
From ExtLib Require Import Structures.Monad Structures.MonadState
  Structures.MonadExc Data.Monads.StateMonad Data.Monads.EitherMonad.
Import ListNotations.
Import MonadNotation.
Local Open Scope string_scope.
Local Open Scope monad_scope.

(** ** Strings *)

Module Str.

(** The bytes of a string, as a list. *)
Definition chars (s : string) : list ascii := list_ascii_of_string s.

(** [is_ascii s]: every character of [s] is an ASCII character. *)
Definition is_ascii (s : string) : bool :=
  forallb (fun c => (N_of_ascii c <? 128)%N) (chars s).

(** Lowercasing of one ASCII character: [A]..[Z] go to [a]..[z]. *)
Definition lower_char (c : ascii) : ascii :=
  let n := N_of_ascii c in
  if ((65 <=? n) && (n <=? 90))%N then ascii_of_N (n + 32) else c.

(** [str.lower] on a string of ASCII characters. *)
Fixpoint ascii_lower (s : string) : string :=
  match s with
  | EmptyString => EmptyString
  | String c rest => String (lower_char c) (ascii_lower rest)
  end.

(** [s.startswith(p)]. *)
Definition startswith (p s : string) : bool := String.prefix p s.

(** [s.zfill(width)] for a string of digits. *)
Fixpoint zeros (n : nat) : string :=
  match n with
  | O => ""
  | S k => String "0" (zeros k)
  end.

Definition zfill (width : nat) (s : string) : string :=
  zeros (width - String.length s) ++ s.

(** The decimal numeral of a natural number, [str(n)]. *)
Definition of_N (n : N) : string :=
  NilZero.string_of_uint (N.to_uint n).

(** ["%02d" % n]. *)
Definition d02 (n : N) : string := zfill 2 (of_N n).

Definition is_digit (c : ascii) : bool :=
  let n := N_of_ascii c in ((48 <=? n) && (n <=? 57))%N.

(** The first two bytes of a surrogate: the byte ED, then a byte from A0
    to BF.  No other code point is written with these two bytes, and ED is
    never the second or third byte of a code point. *)
Definition surrogate_start (c1 c2 : ascii) : bool :=
  ((N_of_ascii c1 =? 237) && (160 <=? N_of_ascii c2) && (N_of_ascii c2 <=? 191))%N.

(** [has_surrogate s]: the text holds a lone surrogate. *)
Fixpoint has_surrogate (s : string) : bool :=
  match s with
  | String c1 (String c2 _ as rest) => surrogate_start c1 c2 || has_surrogate rest
  | _ => false
  end.

(** The [str] made of the lone surrogate U+D800, ['\ud800']. *)
Definition lone_surrogate : string :=
  String "237" (String "160" (String "128" "")).

End Str.

(** ** Dictionaries

    A [dict] keeps its items in insertion order, one item per key.  The two
    tools only build dictionaries from [str] keys to [str] values. *)

Definition dict := list (string * string).

Module Dict.

(** [d[k] = v]: replaces the value of an existing key in place, appends
    a new key at the end. *)
Fixpoint set (d : dict) (k v : string) : dict :=
  match d with
  | [] => [(k, v)]
  | (k', v') :: rest =>
      if String.eqb k' k then (k', v) :: rest else (k', v') :: set rest k v
  end.

(** The display [{k1: v1, k2: v2, ...}]: the items are stored from left
    to right into an empty dictionary. *)
Definition literal (items : list (string * string)) : dict :=
  fold_left (fun d kv => set d (fst kv) (snd kv)) items [].

(** [d.get(k)]: [None] when the key is absent. *)
Fixpoint get (d : dict) (k : string) : option string :=
  match d with
  | [] => None
  | (k', v) :: rest => if String.eqb k' k then Some v else get rest k
  end.

(** [k in d]. *)
Definition mem (k : string) (d : dict) : bool :=
  match get d k with Some _ => true | None => false end.

End Dict.

(** ** Exceptions, standard output and the monad of a call *)

(** An instance of (a subclass of) Python's [Exception]: its class name
    and its description [str(e)]. *)
Record Exception := mkException {
  exc_class : string;
  exc_str : string
}.

(** What can be raised: an instance of [Exception], or an instance of
    another subclass of [BaseException], which [except Exception] does not
    catch. *)
Inductive BaseException :=
| IsException (e : Exception)
| NotException (class_name description : string).

Definition stdout := list string.

(** A computation threads standard output and ends with [inr a] (it
    returns [a]) or [inl b] (it raises [b]); what was printed before an
    exception was raised stays printed. *)
Definition Py := eitherT BaseException (state stdout).

Definition run {A : Type} (m : Py A) (out : stdout)
  : (BaseException + A) * stdout :=
  runState (unEitherT m) out.

(** The value a call returns, if it returns. *)
Definition returned {A : Type} (m : Py A) (out : stdout) : option A :=
  match fst (run m out) with
  | inr a => Some a
  | inl _ => None
  end.

(** A library call that returns a value or raises an [Exception]. *)
Definition call {A : Type} (r : Exception + A) : Py A :=
  match r with
  | inl e => raise (IsException e)
  | inr a => ret a
  end.

(** [try: body / except Exception as e: handler e]. *)
Definition except_Exception {A : Type} (body : Py A)
    (handler : Exception -> Py A) : Py A :=
  catch body
    (fun b => match b with
              | IsException e => handler e
              | NotException _ _ => raise b
              end).

(** ** Aware datetimes and [strftime] *)

Module Datetime.

(** An aware [datetime.datetime] object, as [datetime.datetime.now(tz)]
    builds it: the fields of the local time, with the name and the UTC
    offset (in seconds) that its [tzinfo] gives for it. *)
Record datetime := mkDatetime {
  year : N;
  month : N;
  day : N;
  hour : N;
  minute : N;
  second : N;
  microsecond : N;
  tzname : string;
  utcoffset : Z
}.

Definition is_leap (y : N) : bool :=
  ((y mod 4 =? 0) && (negb (y mod 100 =? 0) || (y mod 400 =? 0)))%N.

Definition days_in_month (y m : N) : N :=
  match m with
  | 2 => if is_leap y then 29 else 28
  | 4 | 6 | 9 | 11 => 30
  | _ => 31
  end%N.

(** The invariant of the class: [MINYEAR <= year <= MAXYEAR], a day that
    exists in the month, a time of day, an offset of less than a day. *)
Definition valid (dt : datetime) : bool :=
  ((1 <=? year dt) && (year dt <=? 9999) &&
   (1 <=? month dt) && (month dt <=? 12) &&
   (1 <=? day dt) && (day dt <=? days_in_month (year dt) (month dt)) &&
   (hour dt <? 24) && (minute dt <? 60) && (second dt <? 60) &&
   (microsecond dt <? 1000000))%N &&
  ((-86400 <? utcoffset dt) && (utcoffset dt <? 86400))%Z.

(** The directive [%z]: sign, hours and minutes of the offset, and its
    seconds when there are some. *)
Definition format_offset (off : Z) : string :=
  let sign := if (off <? 0)%Z then "-" else "+" in
  let a := Z.to_N (Z.abs off) in
  let h := (a / 3600)%N in
  let m := ((a mod 3600) / 60)%N in
  let s := (a mod 60)%N in
  sign ++ Str.d02 h ++ Str.d02 m ++ (if (s =? 0)%N then "" else Str.d02 s).

(** One directive [%c].  The year is written in decimal as it is, without
    padding, as the C library writes it on Linux (the year 999 gives
    [999]); the other numbers are written with two digits, padded with a
    zero.  A code that is not listed here is left as it is. *)
Definition directive (dt : datetime) (c : ascii) : string :=
  match c with
  | "Y"%char => Str.of_N (year dt)
  | "m"%char => Str.d02 (month dt)
  | "d"%char => Str.d02 (day dt)
  | "H"%char => Str.d02 (hour dt)
  | "M"%char => Str.d02 (minute dt)
  | "S"%char => Str.d02 (second dt)
  | "Z"%char => tzname dt
  | "z"%char => format_offset (utcoffset dt)
  | "%"%char => "%"
  | _ => String "%" (String c "")
  end.

(** [dt.strftime(fmt)]. *)
Fixpoint strftime (dt : datetime) (fmt : string) : string :=
  match fmt with
  | EmptyString => ""
  | String "%"%char (String c rest) => directive dt c ++ strftime dt rest
  | String c rest => String c (strftime dt rest)
  end.

End Datetime.

(** ** The runtime *)

(** What the tools call in the Python runtime and its library.
    - [lower s] is [s.lower()] and [repr s] is [repr(s)];
    - [ZoneInfo key] builds the time zone of that key from the time zone
      database of the machine, or raises (a [ZoneInfoNotFoundError] when the
      database does not have the key);
    - [datetime_now tz] is [datetime.datetime.now(tz)]: it reads the clock
      of the machine and gives the local time in [tz], or raises;
    - [encode_error text] is the [UnicodeEncodeError] that standard output
      raises for a text with a lone surrogate.
    Two facts on lone surrogates come with them: [str.lower] leaves a lone
    surrogate where it is, and [repr] writes a lone surrogate as an escape
    (["\ud800"]), so that its result holds none. *)
Class Runtime := {
  lower : string -> string;
  repr : string -> string;
  tzinfo : Type;
  ZoneInfo : string -> Exception + tzinfo;
  datetime_now : tzinfo -> Exception + Datetime.datetime;
  encode_error : string -> Exception;
  lower_surrogate :
    forall s, Str.has_surrogate s = true -> Str.has_surrogate (lower s) = true;
  repr_surrogate : forall s, Str.has_surrogate (repr s) = false
}.

(** On a string of ASCII characters [str.lower] changes the letters [A]
    to [Z] and nothing else.  The statements that look at concrete city
    names ask this of the runtime. *)
Definition lower_on_ascii (R : Runtime) : Prop :=
  forall s, Str.is_ascii s = true -> lower s = Str.ascii_lower s.

(** ** The tools *)

Section Tools.

Context {R : Runtime}.

(** [print(text)]: the text goes to standard output, unless the stream
    cannot encode it. *)
Definition print (text : string) : Py unit :=
  if Str.has_surrogate text then raise (IsException (encode_error text))
  else out <- get ;; put (out ++ [text])%list.

(** [str(d)], which is [repr(d)]: what an f-string writes for [{d}]. *)
Definition dict_str (d : dict) : string :=
  "{" ++ String.concat ", " (map (fun kv => repr (fst kv) ++ ": " ++ repr (snd kv)) d)
      ++ "}".

Definition get_weather (city : string) : Py dict :=
  print ("--- Tool: get_weather called with city='" ++ city ++ "' ---") ;;
  let result :=
    if lower city =? "new york" then
      Dict.literal
        [ ("status", "success");
          ("report",
            "The weather in New York is sunny with a temperature of 25 degrees"
            ++ " Celsius (77 degrees Fahrenheit).") ]
    else
      Dict.literal
        [ ("status", "error");
          ("error_message",
            "Weather information for '" ++ city ++ "' is not available.") ]
  in
  print ("--- Tool: get_weather returning: " ++ dict_str result ++ " ---") ;;
  ret result.

Definition get_current_time (city : string) : Py dict :=
  print ("--- Tool: get_current_time called with city='" ++ city ++ "' ---") ;;
  if lower city =? "new york" then
    let tz_identifier := "America/New_York" in
    result <-
      except_Exception
        (tz <- call (ZoneInfo tz_identifier) ;;
         now <- call (datetime_now tz) ;;
         let report :=
           "The current time in " ++ city ++ " is "
           ++ Datetime.strftime now "%Y-%m-%d %H:%M:%S %Z%z" in
         ret (Dict.literal [ ("status", "success"); ("report", report) ]))
        (fun e =>
           ret (Dict.literal
                  [ ("status", "error");
                    ("error_message",
                      "Error getting time for " ++ city ++ ": " ++ exc_str e) ])) ;;
    print ("--- Tool: get_current_time returning: " ++ dict_str result ++ " ---") ;;
    ret result
  else
    let result :=
      Dict.literal
        [ ("status", "error");
          ("error_message",
            "Sorry, I don't have timezone information for " ++ city ++ ".") ]
    in
    print ("--- Tool: get_current_time returning: " ++ dict_str result ++ " ---") ;;
    ret result.

End Tools.

(** ** The shape of a result *)

(** The two variants of a tool's result. *)
Inductive ToolResult :=
| Success (report : string)
| Error (error_message : string).

(** The variant that a dictionary carries: a ["status"] of ["success"] with
    a ["report"] and no ["error_message"], or a ["status"] of ["error"] with
    an ["error_message"] and no ["report"]; no variant otherwise. *)
Definition variant (d : dict) : option ToolResult :=
  match Dict.get d "status", Dict.get d "report", Dict.get d "error_message" with
  | Some st, Some r, None => if st =? "success" then Some (Success r) else None
  | Some st, None, Some m => if st =? "error" then Some (Error m) else None
  | _, _, _ => None
  end.

(** [has_form pat s]: [s] is written after the pattern [pat], in which [d]
    stands for one decimal digit and any other character for itself. *)
Fixpoint has_form (pat s : string) : bool :=
  match pat, s with
  | EmptyString, EmptyString => true
  | String p pat', String c s' =>
      (if Ascii.eqb p "d" then Str.is_digit c else Ascii.eqb p c)
      && has_form pat' s'
  | _, _ => false
  end.

(** ** Facts on strings *)

Lemma append_assoc (a b c : string) : (a ++ b) ++ c = a ++ b ++ c.
Proof. induction a as [| x a IH]; simpl; [reflexivity | now rewrite IH]. Qed.

Lemma append_empty_r (a : string) : a ++ "" = a.
Proof. induction a as [| x a IH]; simpl; [reflexivity | now rewrite IH]. Qed.

Lemma prefix_append (p s : string) : String.prefix p (p ++ s) = true.
Proof.
  induction p as [| c p IH]; simpl.
  - destruct s; reflexivity.
  - rewrite IH. destruct (ascii_dec c c); [reflexivity | congruence].
Qed.

Lemma startswith_append (p s : string) : Str.startswith p (p ++ s) = true.
Proof. apply prefix_append. Qed.

Lemma length_append (a b : string) :
  String.length (a ++ b) = String.length a + String.length b.
Proof. induction a as [| x a IH]; simpl; [reflexivity | now rewrite IH]. Qed.

Lemma append_inv_head (a b c : string) : a ++ b = a ++ c -> b = c.
Proof.
  induction a as [| x a IH]; simpl; intros E; [exact E |].
  injection E as E. now apply IH.
Qed.

Lemma append_inv_tail (a b c : string) : b ++ a = c ++ a -> b = c.
Proof.
  revert c. induction b as [| x b IH]; intros [| y c] E; simpl in E.
  - reflexivity.
  - apply (f_equal String.length) in E. simpl in E.
    rewrite length_append in E. lia.
  - apply (f_equal String.length) in E. simpl in E.
    rewrite length_append in E. lia.
  - injection E as -> E. f_equal. now apply IH.
Qed.

(** A text with the city between two fixed parts gives the city back. *)
Lemma embedded_inj (before after c1 c2 : string) :
  before ++ c1 ++ after = before ++ c2 ++ after -> c1 = c2.
Proof. intros E. apply append_inv_head, append_inv_tail in E. exact E. Qed.

(** ** Facts on lone surrogates *)

Lemma is_ascii_cons (c : ascii) (s : string) :
  Str.is_ascii (String c s) = ((N_of_ascii c <? 128)%N && Str.is_ascii s).
Proof. reflexivity. Qed.

Lemma surrogate_start_ascii_l (c1 c2 : ascii) :
  (N_of_ascii c1 <? 128)%N = true -> Str.surrogate_start c1 c2 = false.
Proof.
  intros H. apply N.ltb_lt in H. unfold Str.surrogate_start.
  destruct (N.eqb_spec (N_of_ascii c1) 237); [lia | reflexivity].
Qed.

Lemma surrogate_start_ascii_r (c1 c2 : ascii) :
  (N_of_ascii c2 <? 128)%N = true -> Str.surrogate_start c1 c2 = false.
Proof.
  intros H. apply N.ltb_lt in H. unfold Str.surrogate_start.
  destruct (N.leb_spec 160 (N_of_ascii c2)); [lia |].
  now rewrite andb_false_r.
Qed.

Lemma has_surrogate_cons (c1 c2 : ascii) (s : string) :
  Str.has_surrogate (String c1 (String c2 s))
  = Str.surrogate_start c1 c2 || Str.has_surrogate (String c2 s).
Proof. reflexivity. Qed.

Lemma has_surrogate_ascii_head (c : ascii) (s : string) :
  (N_of_ascii c <? 128)%N = true ->
  Str.has_surrogate (String c s) = Str.has_surrogate s.
Proof.
  intros H. destruct s as [| c2 s]; [reflexivity |].
  now rewrite has_surrogate_cons, surrogate_start_ascii_l.
Qed.

(** An ASCII text holds no surrogate, and none appears where it is
    joined to another text. *)
Lemma has_surrogate_ascii_l (a b : string) :
  Str.is_ascii a = true -> Str.has_surrogate (a ++ b) = Str.has_surrogate b.
Proof.
  induction a as [| c a IH]; [reflexivity |].
  rewrite is_ascii_cons. intros H. apply andb_true_iff in H as [Hc Ha].
  simpl append. rewrite has_surrogate_ascii_head by exact Hc. now apply IH.
Qed.

Lemma has_surrogate_ascii (a : string) :
  Str.is_ascii a = true -> Str.has_surrogate a = false.
Proof.
  intros H. rewrite <- (append_empty_r a). now rewrite has_surrogate_ascii_l.
Qed.

Lemma has_surrogate_before_ascii (a : string) (c : ascii) (b : string) :
  (N_of_ascii c <? 128)%N = true ->
  Str.has_surrogate (a ++ String c b)
  = Str.has_surrogate a || Str.has_surrogate (String c b).
Proof.
  intros Hc. induction a as [| x a IH]; [reflexivity |].
  destruct a as [| y a].
  - simpl append. rewrite has_surrogate_cons.
    now rewrite surrogate_start_ascii_r.
  - change ((String x (String y a)) ++ String c b)
      with (String x (String y (a ++ String c b))).
    rewrite !has_surrogate_cons.
    change (String y (a ++ String c b)) with (String y a ++ String c b).
    rewrite IH. now rewrite orb_assoc.
Qed.

Lemma has_surrogate_mid (a lit b : string) :
  Str.is_ascii lit = true -> lit <> "" ->
  Str.has_surrogate (a ++ lit ++ b)
  = Str.has_surrogate a || Str.has_surrogate b.
Proof.
  intros Hl Hn. destruct lit as [| c lit]; [congruence |].
  rewrite is_ascii_cons in Hl. apply andb_true_iff in Hl as [Hc Hl].
  simpl append. rewrite has_surrogate_before_ascii by exact Hc.
  rewrite has_surrogate_ascii_head by exact Hc.
  now rewrite has_surrogate_ascii_l.
Qed.

Lemma has_surrogate_ascii_r (a lit : string) :
  Str.is_ascii lit = true ->
  Str.has_surrogate (a ++ lit) = Str.has_surrogate a.
Proof.
  intros Hl. destruct lit as [| c lit]; [now rewrite append_empty_r |].
  rewrite <- (append_empty_r (String c lit)).
  rewrite has_surrogate_mid; [apply orb_false_r | exact Hl | discriminate].
Qed.

(** Takes the fixed ASCII parts out of [has_surrogate] of a text. *)
Ltac surrogates :=
  repeat first
    [ rewrite has_surrogate_ascii_l by reflexivity
    | rewrite has_surrogate_mid by (first [reflexivity | discriminate])
    | rewrite has_surrogate_ascii_r by reflexivity ].

Lemma concat_surrogate (sep : string) (parts : list string) :
  Str.is_ascii sep = true -> sep <> "" ->
  (forall x, In x parts -> Str.has_surrogate x = false) ->
  Str.has_surrogate (String.concat sep parts) = false.
Proof.
  intros Hs Hn. induction parts as [| x l IH]; intros H; [reflexivity |].
  destruct l as [| y l].
  - apply H. now left.
  - change (String.concat sep (x :: y :: l))
      with (x ++ sep ++ String.concat sep (y :: l)).
    rewrite has_surrogate_mid by assumption.
    rewrite (H x) by now left.
    apply IH. intros z Hz. apply H. now right.
Qed.

Lemma lone_surrogate_has_surrogate :
  Str.has_surrogate Str.lone_surrogate = true.
Proof. reflexivity. Qed.

Lemma ascii_lower_surrogate (s : string) :
  Str.has_surrogate s = true -> Str.has_surrogate (Str.ascii_lower s) = true.
Proof.
  assert (K : forall c, (128 <=? N_of_ascii c)%N = true -> Str.lower_char c = c).
  { intros c Hc. apply N.leb_le in Hc. unfold Str.lower_char.
    destruct (N.leb_spec (N_of_ascii c) 90); [lia |].
    now rewrite andb_false_r. }
  assert (S : forall c1 c2, Str.surrogate_start c1 c2 = true ->
                Str.lower_char c1 = c1 /\ Str.lower_char c2 = c2).
  { intros c1 c2 H. unfold Str.surrogate_start in H.
    rewrite !andb_true_iff in H. destruct H as [[H1 H2] _].
    apply N.eqb_eq in H1. apply N.leb_le in H2.
    split; apply K, N.leb_le; lia. }
  induction s as [| c1 s IH]; [discriminate |].
  destruct s as [| c2 s]; [discriminate |].
  rewrite has_surrogate_cons.
  change (Str.ascii_lower (String c1 (String c2 s)))
    with (String (Str.lower_char c1) (String (Str.lower_char c2) (Str.ascii_lower s))).
  rewrite has_surrogate_cons. intros H.
  apply orb_true_iff in H as [H | H]; apply orb_true_iff.
  - left. destruct (S c1 c2 H) as [-> ->]. exact H.
  - right. apply IH in H. exact H.
Qed.

(** ** A concrete runtime

    [str.lower] and [repr] on ASCII strings, a time zone database that is
    present or missing, and a clock that is read or fails. *)

Module Example.

Definition squote : ascii := "039".
Definition dquote : ascii := "034".
Definition backslash : ascii := "092".

Definition contains_char (c : ascii) (s : string) : bool :=
  existsb (Ascii.eqb c) (Str.chars s).

Definition hex_digit (n : N) : ascii :=
  match String.get (N.to_nat n) "0123456789abcdef" with
  | Some c => c
  | None => "0"%char
  end.

(** One character of the [repr] of an ASCII string quoted with [q]; a
    byte that is not ASCII is written as an escape too. *)
Definition escape (q c : ascii) : string :=
  let n := N_of_ascii c in
  if Ascii.eqb c q || Ascii.eqb c backslash then String backslash (String c "")
  else if (n =? 9)%N then String backslash "t"
  else if (n =? 10)%N then String backslash "n"
  else if (n =? 13)%N then String backslash "r"
  else if ((n <? 32) || (127 <=? n))%N then
    String backslash (String "x" (String (hex_digit (n / 16)) (String (hex_digit (n mod 16)) "")))
  else String c "".

(** [repr(s)] for an ASCII string: double quotes when [s] has a single
    quote and no double quote, single quotes otherwise. *)
Definition repr_ascii (s : string) : string :=
  let q := if contains_char squote s && negb (contains_char dquote s)
           then dquote else squote in
  String q (String.concat "" (map (escape q) (Str.chars s))) ++ String q "".

(** The description of the [UnicodeEncodeError] of the UTF-8 codec for a
    text: the position of the first lone surrogate, counted in code
    points, with the surrogate itself when it is alone and with the
    position of the last one when several follow each other. *)
Definition is_continuation (c : ascii) : bool :=
  ((128 <=? N_of_ascii c) && (N_of_ascii c <? 192))%N.

(** The surrogates at the head of a text: their number, and the code of
    the first one. *)
Fixpoint surrogates_at (fuel : nat) (s : string) : N * N :=
  match fuel, s with
  | S fuel', String c1 (String c2 (String c3 rest)) =>
      if Str.surrogate_start c1 c2 then
        let code := (53248 + (N_of_ascii c2 - 128) * 64 + (N_of_ascii c3 - 128))%N in
        (1 + fst (surrogates_at fuel' rest), code)%N
      else (0, 0)%N
  | _, _ => (0, 0)%N
  end.

(** The code points before the first surrogate, and the surrogates
    there. *)
Fixpoint first_surrogates (s : string) : N * (N * N) :=
  match s with
  | String c1 (String c2 _ as rest) =>
      if Str.surrogate_start c1 c2 then (0%N, surrogates_at (String.length s) s)
      else
        let (position, found) := first_surrogates rest in
        ((if is_continuation c1 then 0 else 1) + position, found)%N
  | _ => (0, (0, 0))%N
  end.

Definition hex4 (n : N) : string :=
  String (hex_digit (n / 4096))
    (String (hex_digit ((n / 256) mod 16))
       (String (hex_digit ((n / 16) mod 16))
          (String (hex_digit (n mod 16)) ""))).

Definition utf8_error (text : string) : Exception :=
  let '(position, (count, code)) := first_surrogates text in
  mkException "UnicodeEncodeError"
    (if (count <=? 1)%N then
       "'utf-8' codec can't encode character '" ++ String backslash "u"
       ++ hex4 code ++ "' in position " ++ Str.of_N position
       ++ ": surrogates not allowed"
     else
       "'utf-8' codec can't encode characters in position "
       ++ Str.of_N position ++ "-" ++ Str.of_N (position + count - 1)
       ++ ": surrogates not allowed").

(** A database that has the key [America/New_York], and none at all. *)
Definition not_found (key : string) : Exception :=
  mkException "ZoneInfoNotFoundError"
    ("'No time zone found with key " ++ key ++ "'").

Definition tzdata (key : string) : Exception + string :=
  if key =? "America/New_York" then inr key else inl (not_found key).

Definition no_tzdata (key : string) : Exception + string :=
  inl (not_found key).

(** A clock in New York on 3 November 2026, and a clock that fails. *)
Definition noon : Datetime.datetime :=
  Datetime.mkDatetime 2026 11 3 12 34 56 789 "EST" (-18000).

Definition clock (dt : Datetime.datetime) (tz : string)
  : Exception + Datetime.datetime := inr dt.

Definition broken_clock (tz : string) : Exception + Datetime.datetime :=
  inl (mkException "OSError" "[Errno 22] Invalid argument").

Lemma is_ascii_append (a b : string) :
  Str.is_ascii (a ++ b) = Str.is_ascii a && Str.is_ascii b.
Proof.
  induction a as [| c a IH]; [reflexivity |].
  simpl append. rewrite !is_ascii_cons, IH. now rewrite andb_assoc.
Qed.

Lemma escape_is_ascii (q c : ascii) :
  (N_of_ascii q <? 128)%N = true -> Str.is_ascii (escape q c) = true.
Proof.
  intros Hq. unfold escape.
  destruct (Ascii.eqb_spec c q) as [-> | _].
  { simpl orb. cbv iota. rewrite !is_ascii_cons, Hq. reflexivity. }
  destruct (Ascii.eqb_spec c backslash) as [-> | _]; [reflexivity |].
  simpl orb. cbv iota.
  destruct (N_of_ascii c =? 9)%N; [reflexivity |].
  destruct (N_of_ascii c =? 10)%N; [reflexivity |].
  destruct (N_of_ascii c =? 13)%N; [reflexivity |].
  destruct ((N_of_ascii c <? 32) || (127 <=? N_of_ascii c))%N eqn:E.
  - destruct c as [[] [] [] [] [] [] [] []]; reflexivity.
  - apply orb_false_iff in E as [_ E]. apply N.leb_gt in E.
    rewrite is_ascii_cons. replace (N_of_ascii c <? 128)%N with true; [reflexivity |].
    symmetry. apply N.ltb_lt. lia.
Qed.

Lemma repr_ascii_is_ascii (s : string) : Str.is_ascii (repr_ascii s) = true.
Proof.
  unfold repr_ascii.
  set (q := if contains_char squote s && negb (contains_char dquote s)
            then dquote else squote).
  assert (Hq : (N_of_ascii q <? 128)%N = true).
  { subst q. destruct (contains_char squote s && negb (contains_char dquote s));
      reflexivity. }
  change (String q (String.concat "" (map (escape q) (Str.chars s))) ++ String q "")
    with (String q (String.concat "" (map (escape q) (Str.chars s)) ++ String q "")).
  rewrite is_ascii_cons, Hq, is_ascii_append. simpl andb.
  rewrite is_ascii_cons, Hq. rewrite andb_true_r.
  induction (Str.chars s) as [| c l IH]; [reflexivity |].
  simpl map. destruct l as [| c' l].
  - simpl. now apply escape_is_ascii.
  - change (String.concat "" (escape q c :: map (escape q) (c' :: l)))
      with (escape q c ++ "" ++ String.concat "" (map (escape q) (c' :: l))).
    rewrite !is_ascii_append, IH, escape_is_ascii by exact Hq. reflexivity.
Qed.

Lemma repr_ascii_surrogate (s : string) :
  Str.has_surrogate (repr_ascii s) = false.
Proof. apply has_surrogate_ascii, repr_ascii_is_ascii. Qed.

Definition runtime (zi : string -> Exception + string)
    (nw : string -> Exception + Datetime.datetime) : Runtime :=
  {| lower := Str.ascii_lower;
     repr := repr_ascii;
     tzinfo := string;
     ZoneInfo := zi;
     datetime_now := nw;
     encode_error := utf8_error;
     lower_surrogate := ascii_lower_surrogate;
     repr_surrogate := repr_ascii_surrogate |}.

Definition working : Runtime := runtime tzdata (clock noon).
Definition without_tzdata : Runtime := runtime no_tzdata (clock noon).
Definition without_clock : Runtime := runtime tzdata broken_clock.

End Example.

(** ** Running computations *)

Section Running.

Context {A B : Type}.

Lemma run_ret (a : A) (out : stdout) : run (ret a) out = (inr a, out).
Proof. reflexivity. Qed.

Lemma run_raise (b : BaseException) (out : stdout) :
  run (raise b : Py A) out = (inl b, out).
Proof. reflexivity. Qed.

Lemma run_bind (m : Py A) (f : A -> Py B) (out : stdout) :
  run (bind m f) out =
  match run m out with
  | (inr a, out') => run (f a) out'
  | (inl b, out') => (inl b, out')
  end.
Proof.
  unfold run. cbn.
  destruct (runState (unEitherT m) out) as [[b | a] out']; reflexivity.
Qed.

Lemma run_except (m : Py A) (h : Exception -> Py A) (out : stdout) :
  run (except_Exception m h) out =
  match run m out with
  | (inl (IsException e), out') => run (h e) out'
  | (inl (NotException c d), out') => (inl (NotException c d), out')
  | (inr a, out') => (inr a, out')
  end.
Proof.
  unfold run, except_Exception. cbn.
  destruct (runState (unEitherT m) out) as [[[e | c d] | a] out']; reflexivity.
Qed.

Lemma run_call (r : Exception + A) (out : stdout) :
  run (call r) out
  = (match r with inl e => inl (IsException e) | inr a => inr a end, out).
Proof. destruct r; reflexivity. Qed.

End Running.

Section Printing.

Context {R : Runtime}.

Lemma run_print_ok (text : string) (out : stdout) :
  Str.has_surrogate text = false ->
  run (print text) out = (inr tt, (out ++ [text])%list).
Proof. intros H. unfold print. rewrite H. reflexivity. Qed.

Lemma run_print_refused (text : string) (out : stdout) :
  Str.has_surrogate text = true ->
  run (print text) out = (inl (IsException (encode_error text)), out).
Proof. intros H. unfold print. rewrite H. reflexivity. Qed.

(** The text of a dictionary holds no lone surrogate: [repr] has written
    them as escapes. *)
Lemma dict_str_surrogate (d : dict) : Str.has_surrogate (dict_str d) = false.
Proof.
  unfold dict_str. surrogates.
  apply concat_surrogate; [reflexivity | discriminate |].
  intros x Hx. apply in_map_iff in Hx as ([k v] & <- & _).
  cbn [fst snd]. surrogates. now rewrite !repr_surrogate.
Qed.

(** A city that lowercases to ["new york"] holds no lone surrogate. *)
Lemma new_york_no_surrogate (city : string) :
  lower city = "new york" -> Str.has_surrogate city = false.
Proof.
  intros H. destruct (Str.has_surrogate city) eqn:E; [| reflexivity].
  apply lower_surrogate in E. rewrite H in E. discriminate.
Qed.

Lemma lone_surrogate_not_new_york : lower Str.lone_surrogate <> "new york".
Proof.
  intros H. apply new_york_no_surrogate in H. discriminate.
Qed.

End Printing.

(** Shows that a text to print holds no lone surrogate. *)
Ltac printable :=
  surrogates;
  rewrite ?dict_str_surrogate, ?repr_surrogate;
  first [ reflexivity | assumption
        | repeat match goal with
                 | H : Str.has_surrogate _ = false |- _ => rewrite H
                 end; reflexivity ].

(** One step of a run: the outermost operation, then the [match] on its
    outcome. *)
Ltac py_step :=
  first [ rewrite run_bind | rewrite run_except
        | rewrite run_print_ok by printable
        | rewrite run_call | rewrite run_ret | rewrite run_raise ];
  cbv beta iota zeta.

Ltac py_run := repeat py_step.

(** ** Facts on dates *)

Lemma has_form_append (p1 p2 s1 s2 : string) :
  has_form p1 s1 = true -> has_form p2 s2 = true ->
  has_form (p1 ++ p2) (s1 ++ s2) = true.
Proof.
  revert s1. induction p1 as [| p p1 IH]; intros [| c s1]; simpl;
    try discriminate; auto.
  intros H1 H2. apply andb_true_iff in H1 as [Hc H1].
  rewrite Hc. simpl. now apply IH.
Qed.

(** A property checked on every number below a bound. *)
Lemma checked_below (P : N -> bool) (bound : N) :
  forallb (fun k => P (N.of_nat k)) (seq 0 (N.to_nat bound)) = true ->
  forall n, (n < bound)%N -> P n = true.
Proof.
  intros Hall n Hn. rewrite forallb_forall in Hall.
  rewrite <- (N2Nat.id n). apply Hall, in_seq. lia.
Qed.

Lemma d02_form (n : N) : (n < 100)%N -> has_form "dd" (Str.d02 n) = true.
Proof.
  apply (checked_below (fun n => has_form "dd" (Str.d02 n)) 100).
  vm_compute. reflexivity.
Qed.

(** A year from 1000 to 9999 is written with four digits. *)
Lemma year_form (n : N) :
  (1000 <= n)%N -> (n < 10000)%N -> has_form "dddd" (Str.of_N n) = true.
Proof.
  intros Hlo Hhi.
  assert (H : ((n <? 1000)%N || has_form "dddd" (Str.of_N n)) = true).
  { revert Hhi.
    apply (checked_below
             (fun n => (n <? 1000)%N || has_form "dddd" (Str.of_N n)) 10000).
    vm_compute. reflexivity. }
  apply orb_true_iff in H as [H | H]; [apply N.ltb_lt in H; lia | exact H].
Qed.

(** The stamp of the tool's format, piece by piece. *)
Definition date_of (dt : Datetime.datetime) : string :=
  Str.of_N (Datetime.year dt) ++ "-" ++ Str.d02 (Datetime.month dt)
  ++ "-" ++ Str.d02 (Datetime.day dt).

Definition time_of (dt : Datetime.datetime) : string :=
  Str.d02 (Datetime.hour dt) ++ ":" ++ Str.d02 (Datetime.minute dt)
  ++ ":" ++ Str.d02 (Datetime.second dt).

Definition zone_of (dt : Datetime.datetime) : string :=
  Datetime.tzname dt ++ Datetime.format_offset (Datetime.utcoffset dt).

Lemma strftime_stamp (dt : Datetime.datetime) :
  Datetime.strftime dt "%Y-%m-%d %H:%M:%S %Z%z"
  = date_of dt ++ " " ++ time_of dt ++ " " ++ zone_of dt.
Proof.
  unfold date_of, time_of, zone_of.
  cbn [Datetime.strftime Datetime.directive].
  repeat (rewrite ?append_assoc; cbn [append]).
  now rewrite append_empty_r.
Qed.

Lemma days_in_month_le (y m : N) : (Datetime.days_in_month y m <= 31)%N.
Proof.
  unfold Datetime.days_in_month.
  destruct (Datetime.is_leap y);
    destruct m as [| p]; [lia | | lia |];
    do 4 (try destruct p as [p | p |]); lia.
Qed.

Lemma valid_fields (dt : Datetime.datetime) :
  Datetime.valid dt = true ->
  (Datetime.year dt < 10000 /\ Datetime.month dt < 100 /\ Datetime.day dt < 100
   /\ Datetime.hour dt < 100 /\ Datetime.minute dt < 100
   /\ Datetime.second dt < 100)%N.
Proof.
  unfold Datetime.valid. rewrite !andb_true_iff.
  rewrite !N.leb_le, !N.ltb_lt. intros H.
  pose proof (days_in_month_le (Datetime.year dt) (Datetime.month dt)).
  lia.
Qed.

Lemma date_of_form (dt : Datetime.datetime) :
  Datetime.valid dt = true -> (1000 <= Datetime.year dt)%N ->
  has_form "dddd-dd-dd" (date_of dt) = true.
Proof.
  intros H Hy0. apply valid_fields in H as (Hy & Hm & Hd & _).
  unfold date_of.
  apply (has_form_append "dddd" "-dd-dd"); [now apply year_form |].
  apply (has_form_append "-" "dd-dd" "-"); [reflexivity |].
  apply (has_form_append "dd" "-dd"); [now apply d02_form |].
  apply (has_form_append "-" "dd" "-"); [reflexivity | now apply d02_form].
Qed.

Lemma time_of_form (dt : Datetime.datetime) :
  Datetime.valid dt = true -> has_form "dd:dd:dd" (time_of dt) = true.
Proof.
  intros H. apply valid_fields in H as (_ & _ & _ & Hh & Hm & Hs).
  unfold time_of.
  apply (has_form_append "dd" ":dd:dd"); [now apply d02_form |].
  apply (has_form_append ":" "dd:dd" ":"); [reflexivity |].
  apply (has_form_append "dd" ":dd"); [now apply d02_form |].
  apply (has_form_append ":" "dd" ":"); [reflexivity | now apply d02_form].
Qed.

(** ** What the tools compute *)

(** The two dictionaries that the displays of the tools evaluate to. *)
Definition success_dict (report : string) : dict :=
  [("status", "success"); ("report", report)].

Definition error_dict (message : string) : dict :=
  [("status", "error"); ("error_message", message)].

Lemma literal_success (report : string) :
  Dict.literal [("status", "success"); ("report", report)] = success_dict report.
Proof. reflexivity. Qed.

Lemma literal_error (message : string) :
  Dict.literal [("status", "error"); ("error_message", message)]
  = error_dict message.
Proof. reflexivity. Qed.

Lemma variant_success (report : string) :
  variant (success_dict report) = Some (Success report).
Proof. reflexivity. Qed.

Lemma variant_error (message : string) :
  variant (error_dict message) = Some (Error message).
Proof. reflexivity. Qed.

Lemma success_dict_inj (r1 r2 : string) :
  success_dict r1 = success_dict r2 -> r1 = r2.
Proof. unfold success_dict. congruence. Qed.

Lemma error_dict_inj (m1 m2 : string) :
  error_dict m1 = error_dict m2 -> m1 = m2.
Proof. unfold error_dict. congruence. Qed.

Lemma Some_inj {A : Type} (a b : A) : Some a = Some b -> a = b.
Proof. congruence. Qed.

(** The two kinds of dictionary are never equal, nor are error messages
    that begin differently. *)
Ltac differ E :=
  unfold success_dict, error_dict in E; discriminate E.

Lemma returned_run {A : Type} (m : Py A) (out out' : stdout) (a : A) :
  run m out = (inr a, out') -> returned m out = Some a.
Proof. unfold returned. now intros ->. Qed.

Lemma raised_run {A : Type} (m : Py A) (out out' : stdout)
    (b : BaseException) :
  run m out = (inl b, out') -> returned m out = None.
Proof. unfold returned. now intros ->. Qed.

(** The sentence of [get_weather] for New York. *)
Definition weather_report : string :=
  "The weather in New York is sunny with a temperature of 25 degrees Celsius (77 degrees Fahrenheit).".

Section ToolFacts.

Context {R : Runtime}.

(** The two texts a call prints: on entry, and before it returns [d]. *)
Definition trace (tool city : string) (d : dict) : list string :=
  [ "--- Tool: " ++ tool ++ " called with city='" ++ city ++ "' ---";
    "--- Tool: " ++ tool ++ " returning: " ++ dict_str d ++ " ---" ].

(** The text of the first [print] of a tool. *)
Definition entry (tool city : string) : string :=
  "--- Tool: " ++ tool ++ " called with city='" ++ city ++ "' ---".

Lemma get_weather_known (city : string) (out : stdout) :
  lower city = "new york" ->
  run (get_weather city) out
  = (inr (success_dict weather_report),
     (out ++ trace "get_weather" city (success_dict weather_report))%list).
Proof.
  intros H. pose proof (new_york_no_surrogate city H) as Hc.
  unfold get_weather. rewrite H, String.eqb_refl.
  py_run. rewrite <- app_assoc. reflexivity.
Qed.

Lemma get_weather_unknown (city : string) (out : stdout) :
  Str.has_surrogate city = false ->
  lower city <> "new york" ->
  let d := error_dict ("Weather information for '" ++ city ++ "' is not available.") in
  run (get_weather city) out
  = (inr d, (out ++ trace "get_weather" city d)%list).
Proof.
  intros Hc H d. unfold get_weather.
  rewrite (proj2 (String.eqb_neq _ _) H).
  py_run. rewrite <- app_assoc. reflexivity.
Qed.

(** A city with a lone surrogate stops a tool at its first [print]. *)
Lemma get_weather_refused (city : string) (out : stdout) :
  Str.has_surrogate city = true ->
  run (get_weather city) out
  = (inl (IsException (encode_error (entry "get_weather" city))), out).
Proof.
  intros Hc. unfold get_weather. rewrite run_bind.
  rewrite run_print_refused; [reflexivity |].
  surrogates. exact Hc.
Qed.

Lemma get_current_time_refused (city : string) (out : stdout) :
  Str.has_surrogate city = true ->
  run (get_current_time city) out
  = (inl (IsException (encode_error (entry "get_current_time" city))), out).
Proof.
  intros Hc. unfold get_current_time. rewrite run_bind.
  rewrite run_print_refused; [reflexivity |].
  surrogates. exact Hc.
Qed.

Lemma get_current_time_unknown (city : string) (out : stdout) :
  Str.has_surrogate city = false ->
  lower city <> "new york" ->
  let d := error_dict ("Sorry, I don't have timezone information for " ++ city ++ ".") in
  run (get_current_time city) out
  = (inr d, (out ++ trace "get_current_time" city d)%list).
Proof.
  intros Hc H d. unfold get_current_time.
  rewrite (proj2 (String.eqb_neq _ _) H).
  py_run. rewrite <- app_assoc. reflexivity.
Qed.

(** The outcome of the [try] block of [get_current_time]: the time zone
    is built, then the clock is read. *)
Definition clock_reading : Exception + Datetime.datetime :=
  match ZoneInfo "America/New_York" with
  | inl e => inl e
  | inr tz => datetime_now tz
  end.

Lemma get_current_time_read (city : string) (out : stdout)
    (now : Datetime.datetime) :
  lower city = "new york" ->
  clock_reading = inr now ->
  let d := success_dict ("The current time in " ++ city ++ " is "
             ++ Datetime.strftime now "%Y-%m-%d %H:%M:%S %Z%z") in
  run (get_current_time city) out
  = (inr d, (out ++ trace "get_current_time" city d)%list).
Proof.
  intros H Hnow d. pose proof (new_york_no_surrogate city H) as Hc.
  unfold get_current_time, clock_reading in *.
  rewrite H, String.eqb_refl. py_run.
  destruct (ZoneInfo "America/New_York") as [e | tz]; [discriminate |].
  py_run. rewrite Hnow. py_run.
  rewrite <- app_assoc. reflexivity.
Qed.

Lemma get_current_time_failed (city : string) (out : stdout)
    (e : Exception) :
  lower city = "new york" ->
  clock_reading = inl e ->
  let d := error_dict ("Error getting time for " ++ city ++ ": " ++ exc_str e) in
  run (get_current_time city) out
  = (inr d, (out ++ trace "get_current_time" city d)%list).
Proof.
  intros H Hnow d. pose proof (new_york_no_surrogate city H) as Hc.
  unfold get_current_time, clock_reading in *.
  rewrite H, String.eqb_refl. py_run.
  destruct (ZoneInfo "America/New_York") as [e' | tz].
  - injection Hnow as ->. py_run. rewrite <- app_assoc. reflexivity.
  - py_run. rewrite Hnow. py_run. rewrite <- app_assoc. reflexivity.
Qed.

(** A call with a city that standard output can encode returns one of
    the dictionaries above. *)
Lemma get_weather_returns (city : string) (out : stdout) :
  Str.has_surrogate city = false ->
  exists d, returned (get_weather city) out = Some d
    /\ (d = success_dict weather_report /\ lower city = "new york"
        \/ d = error_dict ("Weather information for '" ++ city ++ "' is not available.")
           /\ lower city <> "new york").
Proof.
  intros Hc. destruct (string_dec (lower city) "new york") as [H | H].
  - eexists. split; [eapply returned_run, get_weather_known, H | auto].
  - eexists. split; [eapply returned_run, (get_weather_unknown _ _ Hc H) | auto].
Qed.

Lemma get_current_time_returns (city : string) (out : stdout) :
  Str.has_surrogate city = false ->
  exists d, returned (get_current_time city) out = Some d
    /\ ((exists now, d = success_dict ("The current time in " ++ city ++ " is "
                ++ Datetime.strftime now "%Y-%m-%d %H:%M:%S %Z%z")
           /\ lower city = "new york" /\ clock_reading = inr now)
        \/ (exists e, d = error_dict ("Error getting time for " ++ city ++ ": " ++ exc_str e)
           /\ lower city = "new york" /\ clock_reading = inl e)
        \/ d = error_dict ("Sorry, I don't have timezone information for " ++ city ++ ".")
           /\ lower city <> "new york").
Proof.
  intros Hc. destruct (string_dec (lower city) "new york") as [H | H].
  - destruct clock_reading as [e | now] eqn:Hr.
    + eexists. split; [eapply returned_run, (get_current_time_failed _ _ _ H Hr) |].
      right. left. eauto.
    + eexists. split; [eapply returned_run, (get_current_time_read _ _ _ H Hr) |].
      left. eauto.
  - eexists. split; [eapply returned_run, (get_current_time_unknown _ _ Hc H) |].
    auto.
Qed.

(** A call that returns was given a city without a lone surrogate. *)
Lemma get_weather_returned_encodable (city : string) (out : stdout) (d : dict) :
  returned (get_weather city) out = Some d -> Str.has_surrogate city = false.
Proof.
  intros H. destruct (Str.has_surrogate city) eqn:E; [| reflexivity].
  rewrite (raised_run _ _ _ _ (get_weather_refused city out E)) in H.
  discriminate.
Qed.

Lemma get_current_time_returned_encodable (city : string) (out : stdout)
    (d : dict) :
  returned (get_current_time city) out = Some d ->
  Str.has_surrogate city = false.
Proof.
  intros H. destruct (Str.has_surrogate city) eqn:E; [| reflexivity].
  rewrite (raised_run _ _ _ _ (get_current_time_refused city out E)) in H.
  discriminate.
Qed.

End ToolFacts.

(** ** Concrete city names *)

Lemma lower_of_ascii (R : Runtime) (s : string) :
  lower_on_ascii R -> Str.is_ascii s = true -> lower s = Str.ascii_lower s.
Proof. intros H. apply H. Qed.

Lemma example_lower_on_ascii (zi : string -> Exception + string)
    (nw : string -> Exception + Datetime.datetime) :
  lower_on_ascii (Example.runtime zi nw).
Proof. intros s _. reflexivity. Qed.

(** Settles [lower s = t] or [lower s <> t] for a literal ASCII string [s]
    in a runtime with [H : lower_on_ascii R]. *)
Ltac lower_literal H :=
  match goal with
  | |- context [lower ?s] => rewrite (lower_of_ascii _ s H (eq_refl true))
  end;
  vm_compute; first [ reflexivity | discriminate ].

(** ** The contract of a result *)

(** The ["status"] is ["success"] or ["error"]; with ["success"] comes a
    ["report"], with ["error"] an ["error_message"]. *)
Definition status_contract (d : dict) : Prop :=
  (Dict.get d "status" = Some "success" \/ Dict.get d "status" = Some "error")
  /\ (Dict.get d "status" = Some "success" ->
      exists report : string, Dict.get d "report" = Some report)
  /\ (Dict.get d "status" = Some "error" ->
      exists message : string, Dict.get d "error_message" = Some message).

(** One and only one of ["report"] and ["error_message"] is a key, and its
    value is not the empty string. *)
Definition one_payload (d : dict) : Prop :=
  (exists v, Dict.get d "report" = Some v /\ v <> ""
             /\ Dict.mem "error_message" d = false)
  \/ (exists v, Dict.get d "error_message" = Some v /\ v <> ""
                /\ Dict.mem "report" d = false).

Lemma status_contract_success (report : string) :
  status_contract (success_dict report).
Proof.
  repeat split; [now left | now exists report | discriminate].
Qed.

Lemma status_contract_error (message : string) :
  status_contract (error_dict message).
Proof.
  repeat split; [now right | discriminate | now exists message].
Qed.

Lemma one_payload_success (report : string) :
  report <> "" -> one_payload (success_dict report).
Proof. intros H. left. exists report. auto. Qed.

Lemma one_payload_error (message : string) :
  message <> "" -> one_payload (error_dict message).
Proof. intros H. right. exists message. auto. Qed.

Create HintDb tools.
#[local] Hint Resolve status_contract_success status_contract_error
  one_payload_success one_payload_error : tools.

(** Both tools return the Error variant for [city]. *)
Definition both_error {R : Runtime} (city : string) (out : stdout) : Prop :=
  exists dw dt mw mt,
    returned (get_weather city) out = Some dw
    /\ variant dw = Some (Error mw)
    /\ returned (get_current_time city) out = Some dt
    /\ variant dt = Some (Error mt).

(** ** Properties of the tools *)

(** C1. The specification asks that for every city both tools return a dictionary
    with a ["status"] and its payload.  For the city ['\ud800'], a [str]
    of one lone surrogate, neither tool returns: each raises the
    [UnicodeEncodeError] of its first [print], which is outside any [try],
    and has printed nothing. *)
Theorem tools_raise_on_lone_surrogate (R : Runtime) (out : stdout) :
  run (get_weather Str.lone_surrogate) out
  = (inl (IsException (encode_error
            ("--- Tool: get_weather called with city='"
             ++ Str.lone_surrogate ++ "' ---"))),
     out)
  /\ run (get_current_time Str.lone_surrogate) out
     = (inl (IsException (encode_error
               ("--- Tool: get_current_time called with city='"
                ++ Str.lone_surrogate ++ "' ---"))),
        out).
Proof.
  split.
  - apply get_weather_refused. reflexivity.
  - apply get_current_time_refused. reflexivity.
Qed.

(** C2. The specification asks that for every city the returned dictionary has
    exactly one of ["report"] and ["error_message"].  For the city
    ['\ud800'] no dictionary is returned by either tool, so neither key
    comes back. *)
Theorem no_payload_on_lone_surrogate (R : Runtime) (out : stdout) :
  ~ (exists d, returned (get_weather Str.lone_surrogate) out = Some d
               /\ one_payload d)
  /\ ~ (exists d, returned (get_current_time Str.lone_surrogate) out = Some d
                  /\ one_payload d).
Proof.
  split; intros (d & Hd & _).
  - apply get_weather_returned_encodable in Hd. discriminate.
  - apply get_current_time_returned_encodable in Hd. discriminate.
Qed.

(** C3. The specification asks that for every city whose lowercase is not
    ["new york"], [get_weather] returns the Error variant with the message
    on that city.  The lowercase of ['\ud800'] is not ["new york"], and
    [get_weather] returns nothing for it. *)
Theorem get_weather_lone_surrogate (R : Runtime) (out : stdout) :
  lower Str.lone_surrogate <> "new york"
  /\ returned (get_weather Str.lone_surrogate) out = None.
Proof.
  split; [apply lone_surrogate_not_new_york |].
  eapply raised_run, get_weather_refused. reflexivity.
Qed.

(** C4. The specification asks that for every city whose lowercase is not
    ["new york"], [get_current_time] returns the Error variant with the
    message on that city.  The lowercase of ['\ud800'] is not
    ["new york"], and [get_current_time] returns nothing for it. *)
Theorem get_current_time_lone_surrogate (R : Runtime) (out : stdout) :
  lower Str.lone_surrogate <> "new york"
  /\ returned (get_current_time Str.lone_surrogate) out = None.
Proof.
  split; [apply lone_surrogate_not_new_york |].
  eapply raised_run, get_current_time_refused. reflexivity.
Qed.

(** C5. A failure of the time zone resolution or of the clock read is
    never raised to the caller of [get_current_time]: for every city, the
    only exception that leaves a call is the [UnicodeEncodeError] of its
    first [print], for a city with a lone surrogate.  When the lowercase
    of the city is ["new york"] and [ZoneInfo] or [datetime.datetime.now]
    raises [e], the call returns the Error variant whose error_message
    ends with the description [str(e)] of the failure. *)
Theorem get_current_time_contains_failures (R : Runtime) (city : string)
    (out : stdout) :
  (forall b out', run (get_current_time city) out = (inl b, out') ->
     Str.has_surrogate city = true
     /\ b = IsException (encode_error
              ("--- Tool: get_current_time called with city='"
               ++ city ++ "' ---"))
     /\ out' = out)
  /\ (lower city = "new york" ->
      forall e : Exception,
        ZoneInfo "America/New_York" = inl e
        \/ (exists tz, ZoneInfo "America/New_York" = inr tz
                       /\ datetime_now tz = inl e) ->
        exists d, returned (get_current_time city) out = Some d
          /\ variant d
             = Some (Error ("Error getting time for " ++ city ++ ": "
                            ++ exc_str e))).
Proof.
  split.
  - intros b out' Hrun. destruct (Str.has_surrogate city) eqn:Hc.
    + rewrite (get_current_time_refused city out Hc) in Hrun.
      injection Hrun as <- <-. auto.
    + destruct (get_current_time_returns city out Hc) as (d & Hd & _).
      rewrite (raised_run _ _ _ _ Hrun) in Hd. discriminate.
  - intros H e He.
    assert (Hr : clock_reading = inl e).
    { unfold clock_reading. destruct He as [-> | (tz & -> & He)]; auto. }
    eexists. split.
    + eapply returned_run, (get_current_time_failed _ _ _ H Hr).
    + apply variant_error.
Qed.

Lemma get_current_time_contains_failures_witness :
  exists d,
    returned (get_current_time (R := Example.without_tzdata) "New York") []
    = Some d
    /\ variant d
       = Some (Error "Error getting time for New York: 'No time zone found with key America/New_York'").
Proof.
  apply (proj2 (get_current_time_contains_failures
                  Example.without_tzdata "New York" [])
           eq_refl (Example.not_found "America/New_York")).
  left. reflexivity.
Defined.

(** C6. For every two cities [c1] and [c2] whose lowercase is
    ["new york"], such as ["New York"] and ["NEW YORK"], [get_weather c1]
    and [get_weather c2] return the same Success result, with the same
    fixed report. *)
Theorem get_weather_same_report (R : Runtime) (out1 out2 : stdout) :
  (forall c1 c2, lower c1 = "new york" -> lower c2 = "new york" ->
     exists d, returned (get_weather c1) out1 = Some d
       /\ returned (get_weather c2) out2 = Some d
       /\ variant d
          = Some (Success "The weather in New York is sunny with a temperature of 25 degrees Celsius (77 degrees Fahrenheit)."))
  /\ (lower_on_ascii R ->
      exists d, returned (get_weather "New York") out1 = Some d
        /\ returned (get_weather "NEW YORK") out2 = Some d
        /\ variant d
           = Some (Success "The weather in New York is sunny with a temperature of 25 degrees Celsius (77 degrees Fahrenheit).")).
Proof.
  assert (G : forall c1 c2, lower c1 = "new york" -> lower c2 = "new york" ->
     exists d, returned (get_weather c1) out1 = Some d
       /\ returned (get_weather c2) out2 = Some d
       /\ variant d = Some (Success weather_report)).
  { intros c1 c2 H1 H2. exists (success_dict weather_report).
    split; [| split].
    - eapply returned_run, get_weather_known, H1.
    - eapply returned_run, get_weather_known, H2.
    - apply variant_success. }
  split; [exact G |].
  intros HR. apply G; lower_literal HR.
Qed.

Lemma get_weather_same_report_witness :
  exists d,
    returned (get_weather (R := Example.working) "New York") [] = Some d
    /\ returned (get_weather (R := Example.working) "nEw yOrK") ["earlier line"]
       = Some d
    /\ variant d
       = Some (Success "The weather in New York is sunny with a temperature of 25 degrees Celsius (77 degrees Fahrenheit).").
Proof.
  apply (proj1 (get_weather_same_report Example.working [] ["earlier line"])
           "New York" "nEw yOrK"); vm_compute; reflexivity.
Defined.

(** C7. For every city whose lowercase is ["new york"] and every clock
    reading [now] that the time computation gets (the time zone is built
    and the clock is read; the year of a clock reading has four digits),
    [get_current_time] returns the Success variant; its report is
    [The current time in <city> is ] followed by [now] formatted with
    [%Y-%m-%d %H:%M:%S %Z%z], which starts with a date written YYYY-MM-DD,
    a space and a time written HH:MM:SS. *)
Theorem get_current_time_report_stamp (R : Runtime) (city : string)
    (out : stdout) (tz : tzinfo) (now : Datetime.datetime) :
  lower city = "new york" ->
  ZoneInfo "America/New_York" = inr tz ->
  datetime_now tz = inr now ->
  Datetime.valid now = true ->
  (1000 <= Datetime.year now)%N ->
  exists d report date time rest,
    returned (get_current_time city) out = Some d
    /\ variant d = Some (Success report)
    /\ report = "The current time in " ++ city ++ " is "
                ++ Datetime.strftime now "%Y-%m-%d %H:%M:%S %Z%z"
    /\ Datetime.strftime now "%Y-%m-%d %H:%M:%S %Z%z"
       = date ++ " " ++ time ++ rest
    /\ has_form "dddd-dd-dd" date = true
    /\ has_form "dd:dd:dd" time = true.
Proof.
  intros H Hz Hn Hv Hy.
  assert (Hr : clock_reading = inr now).
  { unfold clock_reading. now rewrite Hz. }
  do 2 eexists. exists (date_of now), (time_of now), (" " ++ zone_of now).
  split; [eapply returned_run, (get_current_time_read _ _ _ H Hr) |].
  split; [apply variant_success |].
  split; [reflexivity |].
  split; [apply strftime_stamp |].
  split; [now apply date_of_form | now apply time_of_form].
Qed.

Lemma get_current_time_report_stamp_witness :
  exists d report date time rest,
    returned (get_current_time (R := Example.working) "new york") [] = Some d
    /\ variant d = Some (Success report)
    /\ report = "The current time in new york is 2026-11-03 12:34:56 EST-0500"
    /\ "2026-11-03 12:34:56 EST-0500" = date ++ " " ++ time ++ rest
    /\ has_form "dddd-dd-dd" date = true
    /\ has_form "dd:dd:dd" time = true.
Proof.
  apply (get_current_time_report_stamp Example.working "new york" []
           "America/New_York" Example.noon);
    first [reflexivity | vm_compute; discriminate].
Defined.

(** C8. [get_weather] is deterministic: for every city, two calls with
    that city have the same outcome, whatever was printed before each
    call and whatever the clock and the time zone database are at each
    call: they return the same dictionary (this for every city that
    standard output can encode), or neither returns.  The result depends
    on the input string only. *)
Theorem get_weather_deterministic (R1 R2 : Runtime) (city : string)
    (out1 out2 : stdout) :
  lower (Runtime := R1) city = lower (Runtime := R2) city ->
  returned (get_weather (R := R1) city) out1
  = returned (get_weather (R := R2) city) out2
  /\ (Str.has_surrogate city = false ->
      exists d, returned (get_weather (R := R1) city) out1 = Some d
        /\ returned (get_weather (R := R2) city) out2 = Some d).
Proof.
  intros H.
  assert (G : Str.has_surrogate city = false ->
      exists d, returned (get_weather (R := R1) city) out1 = Some d
        /\ returned (get_weather (R := R2) city) out2 = Some d).
  { intros Hc.
    destruct (string_dec (lower (Runtime := R1) city) "new york") as [H1 | H1].
    - exists (success_dict weather_report). split.
      + eapply returned_run, get_weather_known, H1.
      + eapply returned_run, get_weather_known. now rewrite <- H.
    - eexists. split.
      + eapply returned_run, (get_weather_unknown _ _ Hc H1).
      + eapply returned_run, get_weather_unknown; [exact Hc |].
        now rewrite <- H. }
  split; [| exact G].
  destruct (Str.has_surrogate city) eqn:Hc.
  - rewrite (raised_run _ _ _ _ (get_weather_refused (R := R1) city out1 Hc)).
    rewrite (raised_run _ _ _ _ (get_weather_refused (R := R2) city out2 Hc)).
    reflexivity.
  - destruct (G eq_refl) as (d & -> & ->). reflexivity.
Qed.

Lemma get_weather_deterministic_witness :
  exists d,
    returned (get_weather (R := Example.working) "Boston") [] = Some d
    /\ returned (get_weather (R := Example.without_clock) "Boston")
         ["earlier line"] = Some d.
Proof.
  apply (proj2 (get_weather_deterministic Example.working
                  Example.without_clock "Boston" [] ["earlier line"]
                  eq_refl)).
  reflexivity.
Defined.

(** C9. The specification asks that every city that differs from ["new york"] once
    in lowercase makes both tools return the Error variant.  The city
    ['\ud800'] differs from ["new york"] in lowercase, and the tools do
    not both return the Error variant for it: they return nothing. *)
Theorem no_error_variant_on_lone_surrogate (R : Runtime) (out : stdout) :
  lower Str.lone_surrogate <> "new york"
  /\ ~ both_error Str.lone_surrogate out.
Proof.
  split; [apply lone_surrogate_not_new_york |].
  intros (dw & dt & mw & mt & Hw & _).
  apply get_weather_returned_encodable in Hw. discriminate.
Qed.

(** C10. On success [get_current_time] puts the caller's city in its
    report as it was given: for every city whose lowercase is
    ["new york"], a Success report begins with
    [The current time in <city> is ] in the caller's own casing (for
    ["NEW YORK"] it begins [The current time in NEW YORK is]), whereas the
    report of [get_weather] for the same city is the fixed sentence, which
    says [New York]. *)
Theorem get_current_time_report_keeps_city (R : Runtime) (out : stdout) :
  (forall city, lower city = "new york" ->
     (forall d report,
        returned (get_current_time city) out = Some d ->
        variant d = Some (Success report) ->
        Str.startswith ("The current time in " ++ city ++ " is ") report = true)
     /\ (exists d, returned (get_weather city) out = Some d
           /\ variant d
              = Some (Success "The weather in New York is sunny with a temperature of 25 degrees Celsius (77 degrees Fahrenheit).")))
  /\ (lower_on_ascii R ->
      forall d report,
        returned (get_current_time "NEW YORK") out = Some d ->
        variant d = Some (Success report) ->
        Str.startswith "The current time in NEW YORK is" report = true).
Proof.
  assert (G : forall city d report, lower city = "new york" ->
        returned (get_current_time city) out = Some d ->
        variant d = Some (Success report) ->
        exists stamp,
          report = ("The current time in " ++ city ++ " is ") ++ stamp).
  { intros city d report H Hd Hv.
    destruct (get_current_time_returns city out (new_york_no_surrogate city H))
      as (d' & Hd' & [(now & -> & _) | [(e & -> & _) | [-> _]]]);
      rewrite Hd' in Hd; injection Hd as <-;
      rewrite ?variant_error, ?variant_success in Hv;
      try discriminate.
    injection Hv as <-. eexists. now rewrite !append_assoc. }
  split.
  - intros city H. split.
    + intros d report Hd Hv.
      destruct (G city d report H Hd Hv) as [stamp ->].
      apply startswith_append.
    + exists (success_dict weather_report). split.
      * eapply returned_run, get_weather_known, H.
      * apply variant_success.
  - intros HR d report Hd Hv.
    assert (H : lower "NEW YORK" = "new york") by lower_literal HR.
    destruct (G "NEW YORK" d report H Hd Hv) as [stamp ->].
    apply (startswith_append "The current time in NEW YORK is" (" " ++ stamp)).
Qed.

Lemma get_current_time_report_keeps_city_witness :
  returned (get_current_time (R := Example.working) "NEW YORK") []
  = Some (success_dict "The current time in NEW YORK is 2026-11-03 12:34:56 EST-0500")
  /\ Str.startswith "The current time in NEW YORK is "
       "The current time in NEW YORK is 2026-11-03 12:34:56 EST-0500" = true
  /\ Str.startswith "The current time in NEW YORK is"
       "The current time in NEW YORK is 2026-11-03 12:34:56 EST-0500" = true.
Proof.
  pose proof (get_current_time_report_keeps_city Example.working []) as [G E].
  split; [reflexivity |]. split.
  - apply (proj1 (G "NEW YORK" eq_refl) (success_dict _) _ eq_refl eq_refl).
  - apply (E (example_lower_on_ascii _ _) (success_dict _) _ eq_refl eq_refl).
Defined.

(** ** Further properties of the tools *)





(** X3. The result of [get_weather] tells the city apart: when two calls
    return the same dictionary, either the two cities are the same string
    or both are spellings of New York (their lowercase is ["new york"]). *)
Theorem get_weather_result_identifies_city (R : Runtime) (c1 c2 : string)
    (out1 out2 : stdout) (d : dict) :
  returned (get_weather c1) out1 = Some d ->
  returned (get_weather c2) out2 = Some d ->
  c1 = c2 \/ (lower c1 = "new york" /\ lower c2 = "new york").
Proof.
  intros E1 E2.
  pose proof (get_weather_returned_encodable _ _ _ E1) as P1.
  pose proof (get_weather_returned_encodable _ _ _ E2) as P2.
  destruct (get_weather_returns c1 out1 P1) as (d1 & H1 & [[-> L1] | [-> L1]]);
    destruct (get_weather_returns c2 out2 P2) as (d2 & H2 & [[-> L2] | [-> L2]]);
    rewrite H1 in E1; rewrite H2 in E2; rewrite <- E2 in E1;
    apply Some_inj in E1; try differ E1.
  - now right.
  - left. apply error_dict_inj in E1.
    now apply (embedded_inj "Weather information for '" "' is not available.").
Qed.

Lemma get_weather_result_identifies_city_witness :
  "New York" = "NEW YORK"
  \/ (lower (Runtime := Example.working) "New York" = "new york"
      /\ lower (Runtime := Example.working) "NEW YORK" = "new york").
Proof.
  apply (get_weather_result_identifies_city Example.working
           "New York" "NEW YORK" [] ["earlier line"]
           (success_dict weather_report));
    reflexivity.
Defined.

(** X4. The result of [get_current_time] always tells the city apart: in
    one state of the clock and of the time zone database, calls with two
    different city strings never return the same dictionary, on any path,
    since each message embeds the city as it was given (two spellings of
    New York give two different reports). *)
Theorem get_current_time_result_identifies_city (R : Runtime)
    (c1 c2 : string) (out1 out2 : stdout) (d1 d2 : dict) :
  c1 <> c2 ->
  returned (get_current_time c1) out1 = Some d1 ->
  returned (get_current_time c2) out2 = Some d2 ->
  d1 <> d2.
Proof.
  intros N E1 E2 E. apply N. clear N. subst d2.
  pose proof (get_current_time_returned_encodable _ _ _ E1) as P1.
  pose proof (get_current_time_returned_encodable _ _ _ E2) as P2.
  destruct (get_current_time_returns c1 out1 P1)
    as (x1 & H1 & [(n1 & -> & _ & R1) | [(e1 & -> & _ & R1) | [-> _]]]);
    destruct (get_current_time_returns c2 out2 P2)
      as (x2 & H2 & [(n2 & -> & _ & R2) | [(e2 & -> & _ & R2) | [-> _]]]);
    rewrite H1 in E1; rewrite H2 in E2; rewrite <- E2 in E1;
    apply Some_inj in E1; try differ E1;
    try (rewrite R1 in R2; injection R2 as <-).
  - apply success_dict_inj in E1.
    now apply (embedded_inj "The current time in "
                 (" is " ++ Datetime.strftime n1 "%Y-%m-%d %H:%M:%S %Z%z")).
  - apply error_dict_inj in E1.
    now apply (embedded_inj "Error getting time for " (": " ++ exc_str e1)).
  - apply error_dict_inj in E1.
    now apply (embedded_inj "Sorry, I don't have timezone information for " ".").
Qed.

Lemma get_current_time_result_identifies_city_witness :
  success_dict "The current time in New York is 2026-11-03 12:34:56 EST-0500"
  <> success_dict "The current time in NEW YORK is 2026-11-03 12:34:56 EST-0500".
Proof.
  apply (get_current_time_result_identifies_city Example.working
           "New York" "NEW YORK" [] []);
    first [reflexivity | discriminate].
Defined.

(** ** The tools on a city that can be printed *)

(** X9. For every city that standard output can encode (no lone
    surrogate), [get_weather] and [get_current_time] both return a
    dictionary that has the key ["status"] with the value ["success"] or
    ["error"]; when the status is ["success"] it has a ["report"], when it
    is ["error"] it has an ["error_message"]. *)
Theorem tools_return_status_contract (R : Runtime) (city : string)
    (out : stdout) :
  Str.has_surrogate city = false ->
  (exists d, returned (get_weather city) out = Some d /\ status_contract d)
  /\ (exists d, returned (get_current_time city) out = Some d
                /\ status_contract d).
Proof.
  intros Hc. split.
  - destruct (get_weather_returns city out Hc) as (d & Hd & [[-> _] | [-> _]]);
      eexists; (split; [eassumption |]); auto with tools.
  - destruct (get_current_time_returns city out Hc)
      as (d & Hd & [(now & -> & _) | [(e & -> & _) | [-> _]]]);
      eexists; (split; [eassumption |]); auto with tools.
Qed.

Lemma tools_return_status_contract_witness :
  (exists d, returned (get_weather (R := Example.working) "Oslo") [] = Some d
             /\ status_contract d)
  /\ (exists d, returned (get_current_time (R := Example.working) "Oslo") []
                = Some d
                /\ status_contract d).
Proof.
  apply (tools_return_status_contract Example.working "Oslo" []).
  reflexivity.
Defined.

(** X10. For every city that standard output can encode, the dictionary
    that [get_weather] or [get_current_time] returns has exactly one of
    the keys ["report"] and ["error_message"], never both and never
    neither, and the value of that key is a non-empty string. *)
Theorem tools_return_one_payload (R : Runtime) (city : string)
    (out : stdout) :
  Str.has_surrogate city = false ->
  (exists d, returned (get_weather city) out = Some d /\ one_payload d)
  /\ (exists d, returned (get_current_time city) out = Some d
                /\ one_payload d).
Proof.
  intros Hc. split.
  - destruct (get_weather_returns city out Hc) as (d & Hd & [[-> _] | [-> _]]);
      eexists; (split; [eassumption |]);
      [apply one_payload_success | apply one_payload_error]; discriminate.
  - destruct (get_current_time_returns city out Hc)
      as (d & Hd & [(now & -> & _) | [(e & -> & _) | [-> _]]]);
      eexists; (split; [eassumption |]);
      [apply one_payload_success | apply one_payload_error
      | apply one_payload_error]; discriminate.
Qed.

Lemma tools_return_one_payload_witness :
  (exists d, returned (get_weather (R := Example.working) "") [] = Some d
             /\ one_payload d)
  /\ (exists d, returned (get_current_time (R := Example.without_tzdata) "new york") []
                = Some d
                /\ one_payload d).
Proof.
  split.
  - apply (proj1 (tools_return_one_payload Example.working "" [] eq_refl)).
  - apply (proj2 (tools_return_one_payload Example.without_tzdata
                    "new york" [] eq_refl)).
Defined.

(** X11. For every city [c] that standard output can encode and whose
    lowercase is not ["new york"], [get_weather c] returns the Error
    variant whose error_message is exactly
    [Weather information for '<c>' is not available.], with the input [c]
    as it was given between the single quotes. *)
Theorem get_weather_unknown_city (R : Runtime) (c : string) (out : stdout) :
  Str.has_surrogate c = false ->
  lower c <> "new york" ->
  exists d, returned (get_weather c) out = Some d
    /\ variant d
       = Some (Error ("Weather information for '" ++ c ++ "' is not available.")).
Proof.
  intros Hc H. eexists. split.
  - eapply returned_run, (get_weather_unknown _ _ Hc H).
  - apply variant_error.
Qed.

Lemma get_weather_unknown_city_witness :
  exists d, returned (get_weather (R := Example.working) "Paris") [] = Some d
    /\ variant d
       = Some (Error "Weather information for 'Paris' is not available.").
Proof.
  apply (get_weather_unknown_city Example.working "Paris" []);
    [reflexivity | vm_compute; discriminate].
Defined.

(** X12. For every city [c] that standard output can encode and whose
    lowercase is not ["new york"], [get_current_time c] returns the Error
    variant whose error_message is exactly
    [Sorry, I don't have timezone information for <c>.]; for ["London"]
    the message is [Sorry, I don't have timezone information for London.] *)
Theorem get_current_time_unknown_city (R : Runtime) (out : stdout) :
  (forall c, Str.has_surrogate c = false -> lower c <> "new york" ->
     exists d, returned (get_current_time c) out = Some d
       /\ variant d
          = Some (Error ("Sorry, I don't have timezone information for "
                         ++ c ++ ".")))
  /\ (lower_on_ascii R ->
      exists d, returned (get_current_time "London") out = Some d
        /\ variant d
           = Some (Error "Sorry, I don't have timezone information for London.")).
Proof.
  assert (G : forall c, Str.has_surrogate c = false -> lower c <> "new york" ->
     exists d, returned (get_current_time c) out = Some d
       /\ variant d
          = Some (Error ("Sorry, I don't have timezone information for "
                         ++ c ++ "."))).
  { intros c Hc H. eexists. split.
    - eapply returned_run, (get_current_time_unknown _ _ Hc H).
    - apply variant_error. }
  split; [exact G |].
  intros HR. apply (G "London"); [reflexivity | lower_literal HR].
Qed.

Lemma get_current_time_unknown_city_witness :
  exists d, returned (get_current_time (R := Example.working) "London") [] = Some d
    /\ variant d
       = Some (Error "Sorry, I don't have timezone information for London.").
Proof.
  apply (proj2 (get_current_time_unknown_city Example.working [])).
  intros s _. reflexivity.
Defined.

(** X13. The city is matched after lowercasing and nothing else: for
    every city that standard output can encode and that differs from
    ["new york"] once in lowercase, such as [" new york "] with its spaces
    or ["new york."] with its full stop, [get_weather] and
    [get_current_time] both return the Error variant and not Success. *)
Theorem only_lowercasing_before_matching (R : Runtime) (out : stdout) :
  (forall city, Str.has_surrogate city = false -> lower city <> "new york" ->
     both_error city out)
  /\ (lower_on_ascii R ->
      both_error " new york " out /\ both_error "new york." out).
Proof.
  assert (G : forall city, Str.has_surrogate city = false ->
                lower city <> "new york" -> both_error city out).
  { intros city Hc H. unfold both_error. do 4 eexists.
    split; [eapply returned_run, (get_weather_unknown _ _ Hc H) |].
    split; [apply variant_error |].
    split; [eapply returned_run, (get_current_time_unknown _ _ Hc H) |].
    apply variant_error. }
  split; [exact G |].
  intros HR. split; (apply G; [reflexivity | lower_literal HR]).
Qed.

Lemma only_lowercasing_before_matching_witness :
  both_error (R := Example.working) " new york " []
  /\ both_error (R := Example.working) "new york." []
  /\ both_error (R := Example.working) "New  York" [].
Proof.
  pose proof (only_lowercasing_before_matching Example.working []) as [G E].
  destruct (E (example_lower_on_ascii _ _)) as [E1 E2].
  repeat split; [exact E1 | exact E2 |].
  apply G; [reflexivity | vm_compute; discriminate].
Defined.

(** * The rest of the module: start-up and the scripted interaction

    The module first reads the API key from the environment and refuses to
    go on without it, then builds the agent with the two tools and puts
    three fixed prompts to it, each inside its own [try] block, and prints
    a last text.

    What comes from outside the module is gathered in the class [Host]:
    - [getenv name] is [os.getenv(name)] once [load_dotenv()] has run;
    - [Agent args] is the constructor of the agent framework, which returns
      an agent or raises;
    - [execute a prompt] is [a.execute(prompt)], any computation that may
      print and that returns a response or raises, an [Exception] or not;
    - [str_response r] is [str(r)], what [print(r)] writes.
    [traceback.print_exc()] writes to standard error, which replaces what
    it cannot encode by escapes and is not part of the state. *)

(** The keyword arguments of [Agent(...)]. *)
Record AgentArgs := mkAgentArgs {
  name : string;
  model : string;
  description : string;
  instruction : string;
  tools : list (string -> Py dict)
}.

Class Host := {
  getenv : string -> option string;
  agent : Type;
  response : Type;
  Agent : AgentArgs -> BaseException + agent;
  execute : agent -> string -> Py response;
  str_response : response -> string
}.

(** The truth value of [os.getenv(...)]: [None] and the empty string are
    false, every other string is true. *)
Definition truthy (v : option string) : bool :=
  match v with
  | None => false
  | Some s => negb (s =? "")
  end.

Definition ValueError (message : string) : BaseException :=
  IsException (mkException "ValueError" message).

(** The newline character that starts some of the printed texts. *)
Definition nl : string := String "010" "".

(** [traceback.print_exc()]. *)
Definition print_exc : Py unit := ret tt.

(** A call that returns a value or raises, outside any [try]. *)
Definition construct {A : Type} (r : BaseException + A) : Py A :=
  match r with
  | inl b => raise b
  | inr a => ret a
  end.

Section Script.

Context {R : Runtime} {host : Host}.

(** The statements of the module, from top to bottom. *)
Definition main : Py unit :=
  let GOOGLE_API_KEY := getenv "GOOGLE_API_KEY" in
  (if negb (truthy GOOGLE_API_KEY) then
     raise (ValueError "GOOGLE_API_KEY not found in environment variables. Make sure it's set in your .env file.")
   else ret tt) ;;
  root_agent <-
    construct (Agent
      {| name := "weather_time_agent";
         model := "gemini-2.0-flash";
         description :=
           "Agent to answer questions about the time and weather in a city.";
         instruction :=
           "You are a helpful agent who can answer user questions about the time and weather in a city. "
           ++ "When asked for information, first determine if it's a weather or time request. "
           ++ "Then, identify the city. "
           ++ "Use the appropriate tool to find the information and respond to the user based on the tool's output.";
         tools := [get_weather; get_current_time] |}) ;;
  print "Agent Initialized. Starting interaction..." ;;
  print (nl ++ "Asking about weather...") ;;
  except_Exception
    (result_weather <- execute root_agent "What's the weather like in New York?" ;;
     print (nl ++ "Weather Result:") ;;
     print (str_response result_weather))
    (fun e =>
       print (nl ++ "Error during weather execution: " ++ exc_str e) ;;
       print_exc) ;;
  print (nl ++ "Asking about time...") ;;
  except_Exception
    (result_time <- execute root_agent "What time is it in New York?" ;;
     print (nl ++ "Time Result:") ;;
     print (str_response result_time))
    (fun e =>
       print (nl ++ "Error during time execution: " ++ exc_str e) ;;
       print_exc) ;;
  print (nl ++ "Asking about unsupported city...") ;;
  except_Exception
    (result_unsupported <- execute root_agent "What's the weather in London?" ;;
     print (nl ++ "Unsupported City Result:") ;;
     print (str_response result_unsupported))
    (fun e =>
       print (nl ++ "Error during unsupported city execution: " ++ exc_str e) ;;
       print_exc) ;;
  print (nl ++ "Interaction finished.").

(** The arguments the module gives to [Agent]. *)
Definition root_agent_args : AgentArgs :=
  {| name := "weather_time_agent";
     model := "gemini-2.0-flash";
     description :=
       "Agent to answer questions about the time and weather in a city.";
     instruction :=
       "You are a helpful agent who can answer user questions about the time and weather in a city. When asked for information, first determine if it's a weather or time request. Then, identify the city. Use the appropriate tool to find the information and respond to the user based on the tool's output.";
     tools := [get_weather; get_current_time] |}.

End Script.

(** ** Hosts to run the script on *)

Module ExampleHost.

Definition environ (key : option string) (name : string) : option string :=
  if name =? "GOOGLE_API_KEY" then key else None.

(** An agent whose [execute] prints one text and answers the prompt. *)
Definition answer (a : unit) (prompt : string) : Py string :=
  print (R := Example.working) ("--- working on: " ++ prompt ++ " ---") ;;
  ret ("answer to: " ++ prompt).

(** An agent whose [execute] raises an [Exception]. *)
Definition refuse (a : unit) (prompt : string) : Py string :=
  raise (IsException
           (mkException "AttributeError" ("cannot execute: " ++ prompt))).

(** An agent that answers the questions on the weather and raises on the
    question on the time. *)
Definition answer_weather (a : unit) (prompt : string) : Py string :=
  if prompt =? "What time is it in New York?" then refuse a prompt
  else answer a prompt.

(** An agent whose [execute] is interrupted from the keyboard. *)
Definition interrupted (a : unit) (prompt : string) : Py string :=
  raise (NotException "KeyboardInterrupt" "").

Definition host (key : option string) (built : BaseException + unit)
    (exec : unit -> string -> Py string) : Host :=
  {| getenv := environ key;
     agent := unit;
     response := string;
     Agent := fun _ => built;
     execute := exec;
     str_response := fun r => r |}.

Definition rejected : BaseException :=
  IsException (mkException "ValidationError" "1 validation error for LlmAgent").

End ExampleHost.

(** ** Facts on the script *)

(** [behaves m own o]: whatever was printed before, the computation adds
    the texts [own] to standard output and ends with the outcome [o]. *)
Definition behaves {A : Type} (m : Py A) (own : list string)
    (o : BaseException + A) : Prop :=
  forall out, run m out = (o, (out ++ own)%list).

Section ScriptFacts.

Context {R : Runtime} {host : Host}.

(** What a [try] block of the script prints for the outcome of its call:
    the title and the response, or the text of the error. *)
Definition report (title : string) (failed : Exception -> string)
    (o : BaseException + response) : list string :=
  match o with
  | inr r => [title; str_response r]
  | inl (IsException e) => [failed e]
  | inl (NotException _ _) => []
  end.

(** The outcome is a response or an [Exception] whose text standard
    output can encode. *)
Definition printable_outcome (o : BaseException + response) : Prop :=
  match o with
  | inr r => Str.has_surrogate (str_response r) = false
  | inl (IsException e) => Str.has_surrogate (exc_str e) = false
  | inl (NotException _ _) => False
  end.

(** One [try] block of the script. *)
Lemma run_try_block (m : Py response) (title label : string)
    (own : list string) (o : BaseException + response) (out : stdout) :
  Str.is_ascii title = true ->
  Str.is_ascii label = true ->
  behaves m own o ->
  printable_outcome o ->
  run (except_Exception
         (r <- m ;; print title ;; print (str_response r))
         (fun e => print (label ++ exc_str e) ;; print_exc)) out
  = (inr tt,
     (out ++ own ++ report title (fun e => (label ++ exc_str e)%string) o)%list).
Proof.
  intros Ht Hl Hm Ho. apply has_surrogate_ascii in Ht.
  rewrite run_except, run_bind, (Hm out).
  destruct o as [[e | c d] | r]; simpl in Ho; [| contradiction |].
  - cbv beta iota. unfold print_exc. rewrite run_bind.
    rewrite run_print_ok by (rewrite has_surrogate_ascii_l by exact Hl; exact Ho).
    py_run. rewrite <- app_assoc. reflexivity.
  - cbv beta iota. py_run. rewrite <- !app_assoc. reflexivity.
Qed.

(** A [try] block lets through what is not an [Exception]. *)
Lemma run_try_block_other (m : Py response) (title : string)
    (failed : Exception -> string) (own : list string) (c d : string)
    (out : stdout) :
  behaves m own (inl (NotException c d)) ->
  run (except_Exception
         (r <- m ;; print title ;; print (str_response r))
         (fun e => print (failed e) ;; print_exc)) out
  = (inl (NotException c d), (out ++ own)%list).
Proof.
  intros Hm. rewrite run_except, run_bind, (Hm out). reflexivity.
Qed.

(** The script up to the first prompt, when the key is there and the agent
    is built. *)
Lemma run_main_started (a : agent) (out : stdout) :
  truthy (getenv "GOOGLE_API_KEY") = true ->
  Agent root_agent_args = inr a ->
  run main out
  = run (except_Exception
           (r <- execute a "What's the weather like in New York?" ;;
            print (nl ++ "Weather Result:") ;; print (str_response r))
           (fun e =>
              print ((nl ++ "Error during weather execution: ") ++ exc_str e) ;;
              print_exc) ;;
         print (nl ++ "Asking about time...") ;;
         except_Exception
           (r <- execute a "What time is it in New York?" ;;
            print (nl ++ "Time Result:") ;; print (str_response r))
           (fun e =>
              print ((nl ++ "Error during time execution: ") ++ exc_str e) ;;
              print_exc) ;;
         print (nl ++ "Asking about unsupported city...") ;;
         except_Exception
           (r <- execute a "What's the weather in London?" ;;
            print (nl ++ "Unsupported City Result:") ;;
            print (str_response r))
           (fun e =>
              print ((nl ++ "Error during unsupported city execution: ")
                     ++ exc_str e) ;;
              print_exc) ;;
         print (nl ++ "Interaction finished."))
        (out ++ ["Agent Initialized. Starting interaction...";
                 (nl ++ "Asking about weather...")%string])%list.
Proof.
  intros Hk Ha.
  match goal with |- _ = ?rhs => set (after := rhs) end.
  unfold main. rewrite Hk. cbv beta iota zeta delta [negb].
  change (Agent _) with (Agent root_agent_args). rewrite Ha.
  unfold construct.
  do 8 py_step. rewrite <- app_assoc. reflexivity.
Qed.

End ScriptFacts.

(** ** Properties of the script *)

(** X5. Without an API key the module stops at once: when
    [GOOGLE_API_KEY] is not in the environment, or is the empty string,
    running the module raises the [ValueError] of the check, and nothing
    has been printed (the agent is not built and no prompt is put). *)
Theorem main_refuses_without_key (R : Runtime) (host : Host) (out : stdout) :
  getenv "GOOGLE_API_KEY" = None \/ getenv "GOOGLE_API_KEY" = Some "" ->
  run main out
  = (inl (ValueError "GOOGLE_API_KEY not found in environment variables. Make sure it's set in your .env file."),
     out).
Proof.
  intros K. unfold main.
  assert (T : truthy (getenv "GOOGLE_API_KEY") = false)
    by (destruct K as [-> | ->]; reflexivity).
  rewrite T. cbv beta iota zeta delta [negb]. now py_run.
Qed.

Lemma main_refuses_without_key_witness :
  run (main (R := Example.working)
         (host := ExampleHost.host (Some "") (inr tt) ExampleHost.answer))
      ["earlier line"]
  = (inl (ValueError "GOOGLE_API_KEY not found in environment variables. Make sure it's set in your .env file."),
     ["earlier line"]).
Proof.
  apply (main_refuses_without_key Example.working
           (ExampleHost.host (Some "") (inr tt) ExampleHost.answer)).
  right. reflexivity.
Defined.

(** X6. The construction of the agent is outside every [try] block: with
    a key in the environment, an exception raised by [Agent(...)] leaves
    the module as it is, and nothing has been printed. *)
Theorem main_agent_failure_propagates (R : Runtime) (host : Host)
    (out : stdout) (e : BaseException) :
  truthy (getenv "GOOGLE_API_KEY") = true ->
  Agent root_agent_args = inl e ->
  run main out = (inl e, out).
Proof.
  intros K A. unfold main. rewrite K. cbv beta iota zeta delta [negb].
  change (Agent _) with (Agent root_agent_args). rewrite A.
  unfold construct. now py_run.
Qed.

Lemma main_agent_failure_propagates_witness :
  run (main (R := Example.working)
         (host := ExampleHost.host (Some "secret")
                    (inl ExampleHost.rejected) ExampleHost.answer))
      []
  = (inl ExampleHost.rejected, []).
Proof.
  apply (main_agent_failure_propagates Example.working
           (ExampleHost.host (Some "secret") (inl ExampleHost.rejected)
              ExampleHost.answer));
    reflexivity.
Defined.

(** X7. A failed interaction does not stop the later ones.  With a key in
    the environment and an agent, let each of the three calls of
    [execute] add its own texts to standard output and then return a
    response or raise an instance of [Exception], with a text that
    standard output can encode.  Then the module ends without an
    exception and has printed, in this order and after what was there: the
    text of the start; for each of the three questions its heading, the
    texts of that call of [execute], and either its title with the
    response or the text of its error; and the closing text. *)
Theorem main_runs_three_interactions (R : Runtime) (host : Host)
    (out : stdout) (a : agent) (own1 own2 own3 : list string)
    (o1 o2 o3 : BaseException + response) :
  truthy (getenv "GOOGLE_API_KEY") = true ->
  Agent root_agent_args = inr a ->
  behaves (execute a "What's the weather like in New York?") own1 o1 ->
  behaves (execute a "What time is it in New York?") own2 o2 ->
  behaves (execute a "What's the weather in London?") own3 o3 ->
  printable_outcome o1 -> printable_outcome o2 -> printable_outcome o3 ->
  run main out
  = (inr tt,
     (out
      ++ ["Agent Initialized. Starting interaction...";
          (nl ++ "Asking about weather...")%string]
      ++ own1
      ++ report (nl ++ "Weather Result:")
           (fun e => (nl ++ "Error during weather execution: " ++ exc_str e)%string) o1
      ++ [(nl ++ "Asking about time...")%string]
      ++ own2
      ++ report (nl ++ "Time Result:")
           (fun e => (nl ++ "Error during time execution: " ++ exc_str e)%string) o2
      ++ [(nl ++ "Asking about unsupported city...")%string]
      ++ own3
      ++ report (nl ++ "Unsupported City Result:")
           (fun e => (nl ++ "Error during unsupported city execution: "
                      ++ exc_str e)%string) o3
      ++ [(nl ++ "Interaction finished.")%string])%list).
Proof.
  intros K A B1 B2 B3 P1 P2 P3.
  match goal with |- _ = ?rhs => set (expected := rhs) end.
  rewrite (run_main_started a out K A).
  rewrite run_bind.
  rewrite (run_try_block _ (nl ++ "Weather Result:")
             (nl ++ "Error during weather execution: ") own1 o1 _
             eq_refl eq_refl B1 P1).
  do 2 py_step. rewrite run_bind.
  rewrite (run_try_block _ (nl ++ "Time Result:")
             (nl ++ "Error during time execution: ") own2 o2 _
             eq_refl eq_refl B2 P2).
  do 2 py_step. rewrite run_bind.
  rewrite (run_try_block _ (nl ++ "Unsupported City Result:")
             (nl ++ "Error during unsupported city execution: ") own3 o3 _
             eq_refl eq_refl B3 P3).
  py_step. subst expected. f_equal.
  repeat rewrite <- app_assoc. reflexivity.
Qed.

Lemma answer_behaves (prompt : string) :
  Str.is_ascii prompt = true ->
  behaves (ExampleHost.answer tt prompt)
    ["--- working on: " ++ prompt ++ " ---"] (inr ("answer to: " ++ prompt)).
Proof.
  intros Hp out. unfold ExampleHost.answer.
  apply has_surrogate_ascii in Hp. py_run. reflexivity.
Qed.

Lemma main_runs_three_interactions_witness :
  run (main (R := Example.working)
         (host := ExampleHost.host (Some "secret") (inr tt)
                    ExampleHost.answer_weather))
      ["earlier"]
  = (inr tt,
     [ "earlier";
       "Agent Initialized. Starting interaction...";
       nl ++ "Asking about weather...";
       "--- working on: What's the weather like in New York? ---";
       nl ++ "Weather Result:";
       "answer to: What's the weather like in New York?";
       nl ++ "Asking about time...";
       nl ++ "Error during time execution: cannot execute: What time is it in New York?";
       nl ++ "Asking about unsupported city...";
       "--- working on: What's the weather in London? ---";
       nl ++ "Unsupported City Result:";
       "answer to: What's the weather in London?";
       nl ++ "Interaction finished." ]).
Proof.
  apply (main_runs_three_interactions Example.working
           (ExampleHost.host (Some "secret") (inr tt)
              ExampleHost.answer_weather)
           ["earlier"] tt
           ["--- working on: What's the weather like in New York? ---"]
           []
           ["--- working on: What's the weather in London? ---"]
           (inr "answer to: What's the weather like in New York?")
           (inl (IsException
                   (mkException "AttributeError"
                      "cannot execute: What time is it in New York?")))
           (inr "answer to: What's the weather in London?"));
    try reflexivity.
  - exact (answer_behaves "What's the weather like in New York?" eq_refl).
  - intros out. simpl. now rewrite app_nil_r.
  - exact (answer_behaves "What's the weather in London?" eq_refl).
Defined.

(** X8. [except Exception] does not catch what is not an [Exception].
    With a key in the environment and an agent, when the first call of
    [execute] adds its texts to standard output and raises an exception
    that is not an instance of [Exception] ([KeyboardInterrupt],
    [SystemExit], [asyncio.CancelledError]), that exception leaves the
    module: the other two prompts are not put and the closing text is not
    printed. *)
Theorem main_lets_other_exceptions_through (R : Runtime) (host : Host)
    (out : stdout) (a : agent) (own : list string) (c d : string) :
  truthy (getenv "GOOGLE_API_KEY") = true ->
  Agent root_agent_args = inr a ->
  behaves (execute a "What's the weather like in New York?") own
    (inl (NotException c d)) ->
  run main out
  = (inl (NotException c d),
     (out ++ ["Agent Initialized. Starting interaction...";
              (nl ++ "Asking about weather...")%string]
          ++ own)%list).
Proof.
  intros K A B.
  match goal with |- _ = ?rhs => set (expected := rhs) end.
  rewrite (run_main_started a out K A).
  rewrite run_bind.
  rewrite (run_try_block_other _ _ _ own c d _ B).
  subst expected. cbv beta iota. now rewrite <- app_assoc.
Qed.

Lemma main_lets_other_exceptions_through_witness :
  run (main (R := Example.working)
         (host := ExampleHost.host (Some "secret") (inr tt)
                    ExampleHost.interrupted))
      []
  = (inl (NotException "KeyboardInterrupt" ""),
     [ "Agent Initialized. Starting interaction...";
       nl ++ "Asking about weather..." ]).
Proof.
  apply (main_lets_other_exceptions_through Example.working
           (ExampleHost.host (Some "secret") (inr tt) ExampleHost.interrupted)
           [] tt [] "KeyboardInterrupt" "");
    try reflexivity.
  intros out. simpl. now rewrite app_nil_r.
Defined.
